(** * Phantom monitors: the detection, matching and event-routing core

    A shallow embedding of [phantom/monitors/products.py],
    [phantom/monitors/shopify_monitor.py] and [phantom/monitors/manager.py],
    with the properties of the specification stated over it.

    Conventions of the embedding.
    - Python [str] values are [string]s of ASCII characters; [lower], [upper]
      and [strip] are the ASCII restrictions of the Python methods.
    - Python [float] values are the rationals they denote ([Q]); comparisons
      are exact, arithmetic is the exact rational arithmetic.
    - Python [dict]s keyed by product id are [gmap string _], Python [set]s
      of variant ids are [gset Z].
    - Methods take the object as an explicit first argument and return the
      updated object next to their result; calls to the logger are returned
      as a list of log records.
    - The HTTP session, the proxy, the request clock and the timestamps of
      the records are not part of the embedding: no operation below reads
      them. *)

From Stdlib Require Import ZArith QArith Qminmax String Ascii List Lia.
From stdpp Require Import gmap strings list.

#[local] Open Scope string_scope.
#[local] Open Scope Z_scope.
#[local] Open Scope list_scope.

(** ** Python built-ins used by the sources *)

Module Py.

(** [str.lower] and [str.upper] on ASCII text. *)
Definition lower_ascii (c : ascii) : ascii :=
  let n := nat_of_ascii c in
  if (65 <=? n)%nat && (n <=? 90)%nat then ascii_of_nat (n + 32) else c.

Definition upper_ascii (c : ascii) : ascii :=
  let n := nat_of_ascii c in
  if (97 <=? n)%nat && (n <=? 122)%nat then ascii_of_nat (n - 32) else c.

Fixpoint lower (s : string) : string :=
  match s with
  | EmptyString => EmptyString
  | String c s' => String (lower_ascii c) (lower s')
  end.

Fixpoint upper (s : string) : string :=
  match s with
  | EmptyString => EmptyString
  | String c s' => String (upper_ascii c) (upper s')
  end.

(** [sub in s] for two strings. *)
Fixpoint contains (sub s : string) : bool :=
  if String.prefix sub s then true
  else match s with
       | EmptyString => false
       | String _ s' => contains sub s'
       end.

(** [s.lstrip(c)] for a single character [c]. *)
Fixpoint lstrip_char (c : ascii) (s : string) : string :=
  match s with
  | EmptyString => EmptyString
  | String d s' => if Ascii.eqb c d then lstrip_char c s' else s
  end.

(** [s.rstrip(c)] for a single character [c]. *)
Fixpoint rstrip_char (c : ascii) (s : string) : string :=
  match s with
  | EmptyString => EmptyString
  | String d s' =>
      match rstrip_char c s' with
      | EmptyString => if Ascii.eqb c d then EmptyString else String d EmptyString
      | r => String d r
      end
  end.

(** The characters [str.strip()] and the pattern [\s] treat as white
    space, among ASCII characters. *)
Definition is_space (c : ascii) : bool :=
  let n := nat_of_ascii c in
  ((9 <=? n)%nat && (n <=? 13)%nat) || ((28 <=? n)%nat && (n <=? 32)%nat).

Fixpoint lstrip (s : string) : string :=
  match s with
  | EmptyString => EmptyString
  | String c s' => if is_space c then lstrip s' else s
  end.

Fixpoint rstrip (s : string) : string :=
  match s with
  | EmptyString => EmptyString
  | String c s' =>
      match rstrip s' with
      | EmptyString => if is_space c then EmptyString else String c EmptyString
      | r => String c r
      end
  end.

Definition strip (s : string) : string := rstrip (lstrip s).

(** [s.replace(old, "")] for a non-empty [old]: the occurrences of [old]
    are removed left to right, without overlap.  [skip] counts the
    characters of the current occurrence still to be dropped. *)
Fixpoint remove_from (old : string) (skip : nat) (s : string) : string :=
  match s with
  | EmptyString => EmptyString
  | String c s' =>
      match skip with
      | S k => remove_from old k s'
      | O => if String.prefix old s
             then remove_from old (String.length old - 1) s'
             else String c (remove_from old 0 s')
      end
  end.

Definition remove_all (old s : string) : string := remove_from old 0 s.

(** [min(a, b)] and [max(a, b)]: the first argument unless the second is
    strictly smaller (resp. larger). *)
Definition min (a b : Q) : Q := if Qle_bool a b then a else b.
Definition max (a b : Q) : Q := if Qle_bool b a then a else b.

(** [l[start:]] for a list, with Python's treatment of a negative or
    out-of-range [start]. *)
Definition slice_from {A : Type} (start : Z) (l : list A) : list A :=
  let len := Z.of_nat (length l) in
  let i := if start <? 0 then Z.max (start + len) 0 else Z.min start len in
  drop (Z.to_nat i) l.

End Py.

(** ** [products.py]: curated targets and title matching *)

Module Products.

Record CuratedProduct := {
  name : string;
  brand : string;
  positive_keywords : list string;
  negative_keywords : list string;
  optimized_search : string;
  retail_price : Q;
  current_price : Q;
  profit_dollar : Q;
  profit_ratio : Q;
  priority : string;
  sku : option string;
  style_code : option string;
  source : string;
  enabled : bool;
}.

(** [CuratedProduct.is_profitable] *)
Definition is_profitable (self : CuratedProduct) : bool :=
  negb (Qle_bool (profit_dollar self) 20).

(** The loop over the negative keywords of [matches_title]: [true] when
    it returns early. *)
Fixpoint negative_hit (negs : list string) (title_lower : string) : bool :=
  match negs with
  | [] => false
  | neg :: rest =>
      let neg_clean := Py.lower (Py.lstrip_char "-" neg) in
      if Py.contains neg_clean title_lower then true
      else negative_hit rest title_lower
  end.

(** The loop over the positive keywords: the final [matched_count]. *)
Fixpoint count_positive (poss : list string) (title_lower : string)
    (matched_count : nat) : nat :=
  match poss with
  | [] => matched_count
  | pos :: rest =>
      if Py.contains (Py.lower pos) title_lower
      then count_positive rest title_lower (matched_count + 1)
      else count_positive rest title_lower matched_count
  end.

(** [if code and code.lower() in title_lower: confidence = min(1.0, confidence + 0.3)] *)
Definition boost (code : option string) (title_lower : string) (confidence : Q) : Q :=
  match code with
  | Some c =>
      if negb (String.eqb c "") && Py.contains (Py.lower c) title_lower
      then Py.min 1 (confidence + (3 # 10))
      else confidence
  | None => confidence
  end.

(** [CuratedProduct.matches_title] *)
Definition matches_title (self : CuratedProduct) (title : string) : bool * Q :=
  let title_lower := Py.lower title in
  if negative_hit (negative_keywords self) title_lower then (false, 0%Q)
  else
    let matched_count := count_positive (positive_keywords self) title_lower 0 in
    if (matched_count =? 0)%nat then (false, 0%Q)
    else
      let confidence :=
        Py.min 1 (inject_Z (Z.of_nat matched_count)
                  / Py.max 2 (inject_Z (Z.of_nat (length (positive_keywords self))) * (1 # 2)))%Q in
      let confidence := boost (sku self) title_lower confidence in
      let confidence := boost (style_code self) title_lower confidence in
      (true, confidence).

(** The values of [ProductDatabase.products], in insertion order. *)
Definition ProductDatabase := list CuratedProduct.

(** [matches.sort(key=lambda x: x[1], reverse=True)]: a stable sort by
    descending confidence (entries of equal confidence keep their order). *)
Fixpoint insert_desc (x : CuratedProduct * Q) (l : list (CuratedProduct * Q))
    : list (CuratedProduct * Q) :=
  match l with
  | [] => [x]
  | y :: l' =>
      if negb (Qle_bool (snd y) (snd x)) then y :: insert_desc x l' else x :: l
  end.

Definition sort_desc (l : list (CuratedProduct * Q)) : list (CuratedProduct * Q) :=
  foldr insert_desc [] l.

(** [ProductDatabase.match_product_title] *)
Fixpoint collect_matches (products : list CuratedProduct) (title : string)
    : list (CuratedProduct * Q) :=
  match products with
  | [] => []
  | product :: rest =>
      if negb (enabled product) then collect_matches rest title
      else
        let '(matched, confidence) := matches_title product title in
        if matched then (product, confidence) :: collect_matches rest title
        else collect_matches rest title
  end.

Definition match_product_title (self : ProductDatabase) (title : string)
    : list (CuratedProduct * Q) :=
  sort_desc (collect_matches self title).

(** Two of the built-in targets of [load_builtin]. *)
Definition kids_negatives : list string :=
  ["-kids"; "-gs"; "-ps"; "-td"; "-infant"; "-toddler"; "-preschool"; "-gradeschool"].

Definition off_white_dunk : CuratedProduct :=
  {| name := "Off-White x Nike Dunk Low Pine Green";
     brand := "nike";
     positive_keywords :=
       ["ow dunk pine green"; "off white dunk"; "virgil dunk"; "off white pine green"];
     negative_keywords := kids_negatives;
     optimized_search :=
       "off white dunk ow dunk pine green -kids -gs -ps -td -infant -toddler";
     retail_price := 100; current_price := 800; profit_dollar := 700;
     profit_ratio := 8; priority := "high";
     sku := None; style_code := None; source := "manual"; enabled := true |}.

Definition fragment_jordan : CuratedProduct :=
  {| name := "Fragment x Jordan 1 High";
     brand := "jordan";
     positive_keywords :=
       ["fragment jordan 1"; "fragment aj1"; "frag jordan"; "fragment design jordan"];
     negative_keywords := kids_negatives;
     optimized_search :=
       "fragment jordan 1 fragment aj1 frag jordan -kids -gs -ps -td";
     retail_price := 170; current_price := 1200; profit_dollar := 1030;
     profit_ratio := 706 # 100; priority := "high";
     sku := None; style_code := None; source := "manual"; enabled := true |}.

End Products.

(** ** [base.py]: the product snapshot *)

Module Base.

(** The detail stored per size label in [ProductInfo.variants]. *)
Record VariantDetail := {
  d_id : Z;
  d_price : Q;
  d_sku : option string;
  d_inventory : Z;
}.

(** Modelled from the spec: the class [ProductInfo] of [base.py], which
    is not among the sources.  The fields are the ones the spec lists for
    a product snapshot, under the names of the keyword arguments that
    [_process_products] passes to the constructor ([raw_data] and
    [timestamp], which no operation reads, are left out). *)
Record ProductInfo := {
  url : string;
  title : string;
  sku : option string;
  price : Q;
  image_url : option string;
  available : bool;
  sizes_available : list string;
  variants : gmap string VariantDetail;
}.

End Base.

(** ** [shopify_monitor.py]: the store poller of the generic-catalog family *)

Module Shopify.

Import Base.

(** *** The catalog feed

    One entry of [products.json] and its variants, with the keys the
    poller reads.  A key that is missing or [null] reads as the empty
    string where the poller expects a string.  [v_price] is the value of
    [float(variant.get("price", 0))], [None] when the conversion raises. *)
Record Variant := {
  v_id : Z;
  v_available : bool;
  v_price : option Q;
  v_option1 : string;
  v_option2 : string;
  v_option3 : string;
  v_title : string;
  v_sku : option string;
  v_inventory_quantity : Z;
}.

Record Product := {
  p_id : string;               (* str(product.get("id", "")) *)
  p_title : string;
  p_handle : string;
  p_variants : list Variant;
  p_images : list (option string);   (* the "src" of each image *)
}.

(** *** Runtime records *)

Record MonitoredStore := {
  name : string;
  store_url : string;
  enabled : bool;
  delay_ms : Z;
  error_count : nat;
  success_count : nat;
  products_found : nat;
}.

Record DetectedProduct := {
  info : ProductInfo;
  store_of : MonitoredStore;
  matched_curated : option Products.CuratedProduct;
  match_confidence : Q;
  is_restock : bool;
  new_sizes : list string;
}.

(** The constructor of [DetectedProduct] with the defaults of the
    dataclass for the fields the caller does not pass. *)
Definition mkDetected (info : ProductInfo) (store : MonitoredStore)
    (matched_curated : option Products.CuratedProduct) (match_confidence : Q)
    : DetectedProduct :=
  {| info := info; store_of := store; matched_curated := matched_curated;
     match_confidence := match_confidence; is_restock := false; new_sizes := [] |}.

Record ShopifyStoreMonitor := {
  store : MonitoredStore;
  target_sizes : list string;
  base_url : string;
  _seen_products : gmap string ProductInfo;
  _seen_variants : gmap string (gset Z);
  _consecutive_errors : nat;
  _backoff_until : Q;
}.

(** What the poller writes to the log. *)
Inductive LogRecord :=
| RateLimitedBackingOff (store : string) (backoff_seconds : Z)
| NewProductDetected (store title : string) (sizes : list string)
| RestockDetected (store title : string) (new_variant_count : nat)
| FailedToProcessProduct
| ProductMatchedCurated (product matched : string) (confidence : Q).

(** *** Sizes *)

(** [_normalize_sizes] *)
Definition _normalize_sizes (sizes : list string) : list string :=
  map (fun size =>
         let s := Py.upper (Py.strip size) in
         Py.strip (Py.remove_all "W" (Py.remove_all "M"
                    (Py.remove_all "SIZE" (Py.remove_all "US" s)))))
      sizes.

Definition is_digit (c : ascii) : bool :=
  let n := nat_of_ascii c in (48 <=? n)%nat && (n <=? 57)%nat.

(** [re.sub(r'[^0-9.]', '', value)] *)
Fixpoint digits_and_dots (s : string) : string :=
  match s with
  | EmptyString => EmptyString
  | String c s' =>
      if is_digit c || Ascii.eqb c "."
      then String c (digits_and_dots s') else digits_and_dots s'
  end.

(** [float(s)] for a string of digits and dots: [None] stands for
    [ValueError] (no digit, or more than one dot). *)
Fixpoint parse_decimal (s : string) (dots digits : nat) (mant : Z) (frac : nat)
    : option Q :=
  match s with
  | EmptyString =>
      if (dots <=? 1)%nat && (1 <=? digits)%nat
      then Some (inject_Z mant / inject_Z (10 ^ Z.of_nat frac))%Q
      else None
  | String c s' =>
      if is_digit c
      then parse_decimal s' dots (S digits)
             (10 * mant + (Z.of_nat (nat_of_ascii c) - 48))
             (if (1 <=? dots)%nat then S frac else frac)
      else parse_decimal s' (S dots) digits mant frac
  end.

(** [3 <= num <= 18] for the double nearest to the decimal value [x]:
    rounding to nearest (ties to even) sends [x] to a double that is at
    least 3 from [3 - 2^-52] on, and at most 18 up to [18 + 2^-49]. *)
Definition in_shoe_range (x : Q) : bool :=
  Qle_bool (3 - 1 / inject_Z (2 ^ 52)) x && Qle_bool x (18 + 1 / inject_Z (2 ^ 49)).

Definition letter_sizes : list string :=
  ["XS"; "S"; "M"; "L"; "XL"; "XXL"; "2XL"; "3XL"; "OS"; "ONE SIZE"].

(** [_is_size] *)
Definition _is_size (value : string) : bool :=
  if String.eqb value "" then false
  else
    let value := Py.upper (Py.strip value) in
    let numeric :=
      match parse_decimal (digits_and_dots value) 0 0 0 0 with
      | Some num => in_shoe_range num
      | None => false
      end in
    if numeric then true
    else if existsb (String.eqb value) letter_sizes then true
    else false.

(** The length of the match of [(US|SIZE|MENS?|WOMENS?)] at the head of
    [s], if there is one. *)
Definition size_word (s : string) : option nat :=
  if String.prefix "US" s then Some 2%nat
  else if String.prefix "SIZE" s then Some 4%nat
  else if String.prefix "MENS" s then Some 4%nat
  else if String.prefix "MEN" s then Some 3%nat
  else if String.prefix "WOMENS" s then Some 6%nat
  else if String.prefix "WOMEN" s then Some 5%nat
  else None.

(** [re.sub(r'(US|SIZE|MENS?|WOMENS?)\s*', '', s)].  [skip] counts the
    characters of the matched word still to be dropped; [ws] holds while
    the white space after a word is being dropped. *)
Fixpoint strip_size_words (skip : nat) (ws : bool) (s : string) : string :=
  match s with
  | EmptyString => EmptyString
  | String c s' =>
      match skip with
      | S k => strip_size_words k true s'
      | O =>
          if ws && Py.is_space c then strip_size_words 0 true s'
          else match size_word s with
               | Some n => strip_size_words (n - 1) true s'
               | None => String c (strip_size_words 0 false s')
               end
      end
  end.

(** [_normalize_size] *)
Definition _normalize_size (size : string) : string :=
  let size := Py.upper (Py.strip size) in
  Py.strip (strip_size_words 0 false size).

(** [_extract_size] *)
Definition _extract_size (variant : Variant) : option string :=
  let try_option (value : string) : bool :=
    negb (String.eqb value "") && _is_size value in
  if try_option (v_option1 variant) then Some (_normalize_size (v_option1 variant))
  else if try_option (v_option2 variant) then Some (_normalize_size (v_option2 variant))
  else if try_option (v_option3 variant) then Some (_normalize_size (v_option3 variant))
  else if _is_size (v_title variant) then Some (_normalize_size (v_title variant))
  else None.

(** [ShopifyStoreMonitor.__init__] *)
Definition new_monitor (store : MonitoredStore) (target_sizes : list string)
    : ShopifyStoreMonitor :=
  {| store := store;
     target_sizes := _normalize_sizes target_sizes;
     base_url := Py.rstrip_char "/" (store_url store);
     _seen_products := ∅;
     _seen_variants := ∅;
     _consecutive_errors := 0;
     _backoff_until := 0 |}.

(** *** Field updates *)

Definition with_store (self : ShopifyStoreMonitor) (st : MonitoredStore)
    : ShopifyStoreMonitor :=
  {| store := st; target_sizes := target_sizes self; base_url := base_url self;
     _seen_products := _seen_products self; _seen_variants := _seen_variants self;
     _consecutive_errors := _consecutive_errors self;
     _backoff_until := _backoff_until self |}.

Definition with_seen (self : ShopifyStoreMonitor)
    (products : gmap string ProductInfo) (variants : gmap string (gset Z))
    : ShopifyStoreMonitor :=
  {| store := store self; target_sizes := target_sizes self; base_url := base_url self;
     _seen_products := products; _seen_variants := variants;
     _consecutive_errors := _consecutive_errors self;
     _backoff_until := _backoff_until self |}.

Definition with_backoff (self : ShopifyStoreMonitor) (errors : nat) (until : Q)
    : ShopifyStoreMonitor :=
  {| store := store self; target_sizes := target_sizes self; base_url := base_url self;
     _seen_products := _seen_products self; _seen_variants := _seen_variants self;
     _consecutive_errors := errors; _backoff_until := until |}.

Definition bump_error_count (st : MonitoredStore) : MonitoredStore :=
  {| name := name st; store_url := store_url st; enabled := enabled st;
     delay_ms := delay_ms st; error_count := error_count st + 1;
     success_count := success_count st; products_found := products_found st |}.

Definition bump_products_found (st : MonitoredStore) : MonitoredStore :=
  {| name := name st; store_url := store_url st; enabled := enabled st;
     delay_ms := delay_ms st; error_count := error_count st;
     success_count := success_count st; products_found := products_found st + 1 |}.

(** *** Rate limiting *)

(** [min(300, 10 * (2 ** self._consecutive_errors))] *)
Definition backoff_time (consecutive_errors : nat) : Z :=
  Z.min 300 (10 * 2 ^ Z.of_nat consecutive_errors).

(** [_handle_rate_limit]; [now] is the value of [time.time()]. *)
Definition _handle_rate_limit (self : ShopifyStoreMonitor) (now : Q)
    : ShopifyStoreMonitor * list LogRecord :=
  let backoff := backoff_time (_consecutive_errors self) in
  let self := with_backoff self (_consecutive_errors self + 1) (now + inject_Z backoff)%Q in
  let self := with_store self (bump_error_count (store self)) in
  (self, [RateLimitedBackingOff (name (store self)) backoff]).

(** *** Change detection *)

(** How far one record gets before the check for a new product or a
    restock: it raised, it was skipped by a [continue], or its snapshot
    was built. *)
Inductive Built :=
| Raised
| Skipped
| Snapshot (product_info : ProductInfo).

Definition available_variants (product : Product) : list Variant :=
  filter (fun v => v_available v = true) (p_variants product).

(** The loop that extracts the available sizes and fills [variant_map];
    [None] when a price conversion raises. *)
Fixpoint extract_sizes (avs : list Variant) (sizes_available : list string)
    (variant_map : gmap string VariantDetail)
    : option (list string * gmap string VariantDetail) :=
  match avs with
  | [] => Some (sizes_available, variant_map)
  | variant :: rest =>
      match _extract_size variant with
      | Some size =>
          if String.eqb size "" then extract_sizes rest sizes_available variant_map
          else
            match v_price variant with
            | None => None
            | Some price =>
                extract_sizes rest (sizes_available ++ [size])
                  (<[size := {| d_id := v_id variant; d_price := price;
                                d_sku := v_sku variant;
                                d_inventory := v_inventory_quantity variant |}]>
                     variant_map)
            end
      | None => extract_sizes rest sizes_available variant_map
      end
  end.

(** The body of the loop of [_process_products] from the size extraction
    to the construction of [product_info], for a record with available
    variants. *)
Definition build_info (self : ShopifyStoreMonitor) (product : Product) : Built :=
  match extract_sizes (available_variants product) [] ∅ with
  | None => Raised
  | Some (sizes_available, variant_map) =>
      let filtered :=
        match target_sizes self with
        | [] => Some sizes_available
        | _ :: _ =>
            match filter (fun s => s ∈ target_sizes self) sizes_available with
            | [] => None
            | matching_sizes => Some matching_sizes
            end
        end in
      match filtered with
      | None => Skipped
      | Some sizes_available =>
          let image_url :=
            match p_images product with
            | [] => None
            | image :: _ => image
            end in
          match available_variants product with
          | [] => Raised       (* available_variants[0] on an empty list *)
          | first :: _ =>
              match v_price first with
              | None => Raised
              | Some price =>
                  Snapshot
                    {| url := base_url self +:+ "/products/" +:+ p_handle product;
                       title := p_title product;
                       sku := match p_variants product with
                              | [] => None
                              | v :: _ => v_sku v
                              end;
                       price := price;
                       image_url := image_url;
                       available := true;
                       sizes_available := sizes_available;
                       variants := variant_map |}
              end
          end
      end
  end.

Definition current_variant_ids (product : Product) : gset Z :=
  list_to_set (v_id <$> available_variants product).

(** The variant set recorded for a product id:
    [self._seen_variants.get(product_id, set())]. *)
Definition recorded_variants (self : ShopifyStoreMonitor) (product_id : string)
    : gset Z :=
  default ∅ (_seen_variants self !! product_id).

(** One iteration of the loop of [_process_products]: the poller after
    it, what it appended to [detected] and what it logged. *)
Definition process_product (self : ShopifyStoreMonitor) (product : Product)
    : ShopifyStoreMonitor * list ProductInfo * list LogRecord :=
  let product_id := p_id product in
  match available_variants product with
  | [] =>
      match _seen_products self !! product_id with
      | Some _ =>
          (with_seen self (_seen_products self)
             (<[product_id := ∅]> (_seen_variants self)), [], [])
      | None => (self, [], [])
      end
  | _ :: _ =>
      match build_info self product with
      | Raised => (self, [], [FailedToProcessProduct])
      | Skipped => (self, [], [])
      | Snapshot product_info =>
          let current := current_variant_ids product in
          match _seen_products self !! product_id with
          | None =>
              let self := with_seen self
                            (<[product_id := product_info]> (_seen_products self))
                            (<[product_id := current]> (_seen_variants self)) in
              let self := with_store self (bump_products_found (store self)) in
              (self, [product_info],
               [NewProductDetected (name (store self))
                  (String.substring 0 50 (title product_info))
                  (take 5 (sizes_available product_info))])
          | Some _ =>
              let old_variants := recorded_variants self product_id in
              let new_variants := current ∖ old_variants in
              if decide (new_variants = ∅) then (self, [], [])
              else
                let self := with_seen self
                              (<[product_id := product_info]> (_seen_products self))
                              (<[product_id := current]> (_seen_variants self)) in
                (self, [product_info],
                 [RestockDetected (name (store self))
                    (String.substring 0 50 (title product_info))
                    (size new_variants)])
          end
      end
  end.

(** [_process_products] *)
Fixpoint process_loop (self : ShopifyStoreMonitor) (detected : list ProductInfo)
    (log : list LogRecord) (products_data : list Product)
    : ShopifyStoreMonitor * list ProductInfo * list LogRecord :=
  match products_data with
  | [] => (self, detected, log)
  | product :: rest =>
      let '(self, found, logged) := process_product self product in
      process_loop self (detected ++ found) (log ++ logged) rest
  end.

Definition _process_products (self : ShopifyStoreMonitor) (products_data : list Product)
    : ShopifyStoreMonitor * list ProductInfo * list LogRecord :=
  process_loop self [] [] products_data.

(** [MultiStoreMonitor._handle_product]: the [DetectedProduct] handed to
    the registered callback, and what is logged. *)
Definition _handle_product (product_db : Products.ProductDatabase)
    (store : MonitoredStore) (product : ProductInfo)
    : DetectedProduct * list LogRecord :=
  match Products.match_product_title product_db (title product) with
  | (matched_curated, confidence) :: _ =>
      (mkDetected product store (Some matched_curated) confidence,
       [ProductMatchedCurated (String.substring 0 40 (title product))
          (Products.name matched_curated) confidence])
  | [] => (mkDetected product store None 0, [])
  end.

End Shopify.

(** ** [manager.py]: the monitor manager and its event log *)

Module Manager.

Import Base.

Record MonitorEvent := {
  event_type : string;
  source : string;
  store_name : string;
  product : ProductInfo;
  matched_product : option Products.CuratedProduct;
  match_confidence : Q;
}.

(** [MonitorEvent.priority] *)
Definition priority (self : MonitorEvent) : string :=
  match matched_product self with
  | Some p => Products.priority p
  | None => "low"
  end.

(** [MonitorEvent.is_profitable] *)
Definition is_profitable (self : MonitorEvent) : bool :=
  match matched_product self with
  | Some p => Products.is_profitable p
  | None => false
  end.

(** The manager.  The two callbacks are represented by whether one is
    registered; their invocations are returned as [Effect]s. *)
Record MonitorManager := {
  _events : list MonitorEvent;
  _max_events : Z;
  _on_event : bool;
  _on_high_priority : bool;
  auto_task_enabled : bool;
  auto_task_min_confidence : Q;
  auto_task_min_priority : string;
  total_products_found : nat;
  high_priority_found : nat;
  tasks_created : nat;
}.

Inductive Effect :=
| HighPriorityCallback (event : MonitorEvent)
| EventCallback (event : MonitorEvent)
| AutoTaskLogged (event : MonitorEvent).

(** [MonitorManager.__init__] *)
Definition new_manager : MonitorManager :=
  {| _events := []; _max_events := 1000;
     _on_event := false; _on_high_priority := false;
     auto_task_enabled := false; auto_task_min_confidence := 7 # 10;
     auto_task_min_priority := "medium";
     total_products_found := 0; high_priority_found := 0; tasks_created := 0 |}.

(** [enable_auto_tasks] *)
Definition enable_auto_tasks (self : MonitorManager) (enabled : bool)
    (min_confidence : Q) (min_priority : string) : MonitorManager :=
  {| _events := _events self; _max_events := _max_events self;
     _on_event := _on_event self; _on_high_priority := _on_high_priority self;
     auto_task_enabled := enabled; auto_task_min_confidence := min_confidence;
     auto_task_min_priority := min_priority;
     total_products_found := total_products_found self;
     high_priority_found := high_priority_found self;
     tasks_created := tasks_created self |}.

(** The dictionary [priority_levels] of [_should_create_task]. *)
Definition priority_levels : gmap string Z :=
  {[ "low" := 0; "medium" := 1; "high" := 2 ]}.

(** [_should_create_task] *)
Definition _should_create_task (self : MonitorManager) (event : MonitorEvent) : bool :=
  match matched_product event with
  | None => false
  | Some _ =>
      if negb (Qle_bool (auto_task_min_confidence self) (match_confidence event))
      then false
      else
        let min_level := default 1 (priority_levels !! auto_task_min_priority self) in
        let event_level := default 0 (priority_levels !! priority event) in
        event_level >=? min_level
  end.

(** The state written by [_process_event]. *)
Definition with_log (self : MonitorManager) (events : list MonitorEvent)
    (total high tasks : nat) : MonitorManager :=
  {| _events := events; _max_events := _max_events self;
     _on_event := _on_event self; _on_high_priority := _on_high_priority self;
     auto_task_enabled := auto_task_enabled self;
     auto_task_min_confidence := auto_task_min_confidence self;
     auto_task_min_priority := auto_task_min_priority self;
     total_products_found := total; high_priority_found := high;
     tasks_created := tasks |}.

(** The event log after [self._events.append(event)] and the trim. *)
Definition store_event (self : MonitorManager) (event : MonitorEvent)
    : list MonitorEvent :=
  let events := (_events self ++ [event])%list in
  if Z.of_nat (length events) >? _max_events self
  then Py.slice_from (- _max_events self) events
  else events.

Definition is_high_priority (event : MonitorEvent) : bool :=
  String.eqb (priority event) "high"
  || match matched_product event with
     | Some p => negb (Qle_bool (Products.profit_dollar p) 100)
     | None => false
     end.

(** [_process_event] *)
Definition _process_event (self : MonitorManager) (event : MonitorEvent)
    : MonitorManager * list Effect :=
  let total := (total_products_found self + 1)%nat in
  let events := store_event self event in
  let high := is_high_priority event in
  let create := auto_task_enabled self && _should_create_task self event in
  (with_log self events total
     (if high then high_priority_found self + 1 else high_priority_found self)%nat
     (if create then tasks_created self + 1 else tasks_created self)%nat,
   ((if high && _on_high_priority self then [HighPriorityCallback event] else [])
    ++ (if _on_event self then [EventCallback event] else [])
    ++ (if create then [AutoTaskLogged event] else []))%list).

(** The event built by [_handle_shopify_product]. *)
Definition shopify_event (detected : Shopify.DetectedProduct) : MonitorEvent :=
  {| event_type := if negb (Shopify.is_restock detected) then "new_product" else "restock";
     source := "shopify";
     store_name := Shopify.name (Shopify.store_of detected);
     product := Shopify.info detected;
     matched_product := Shopify.matched_curated detected;
     match_confidence := Shopify.match_confidence detected |}.

(** [_handle_shopify_product] *)
Definition _handle_shopify_product (self : MonitorManager)
    (detected : Shopify.DetectedProduct) : MonitorManager * list Effect :=
  _process_event self (shopify_event detected).

(** [get_recent_events] *)
Definition get_recent_events (self : MonitorManager) (limit : Z) : list MonitorEvent :=
  Py.slice_from (- limit) (_events self).

(** [get_high_priority_events] *)
Definition get_high_priority_events (self : MonitorManager) (limit : Z)
    : list MonitorEvent :=
  let high_priority :=
    filter (fun e => priority e = "high") (_events self) in
  Py.slice_from (- limit) high_priority.

(** Feeding a sequence of events through [_process_event], in order. *)
Fixpoint process_events (self : MonitorManager) (events : list MonitorEvent)
    : MonitorManager :=
  match events with
  | [] => self
  | event :: rest => process_events (fst (_process_event self event)) rest
  end.

End Manager.

(** ** The path of a detection from a store poller to the event log *)

Module Pipeline.

(** One successful poll of a store as [_monitor_store] runs it: the
    catalog goes through [_process_products], each detection through
    [_handle_product] and the registered callback
    [_handle_shopify_product].  The result is the poller after the poll
    and the events the manager builds, in order. *)
Definition poll_events (product_db : Products.ProductDatabase)
    (monitor : Shopify.ShopifyStoreMonitor) (products_data : list Shopify.Product)
    : Shopify.ShopifyStoreMonitor * list Manager.MonitorEvent * list Shopify.LogRecord :=
  let '(monitor, detected, log) := Shopify._process_products monitor products_data in
  (monitor,
   map (fun product =>
          Manager.shopify_event
            (fst (Shopify._handle_product product_db (Shopify.store monitor) product)))
       detected,
   log).

End Pipeline.

(** ** The notions the specification speaks in *)

Module Spec.

(** *** Matching *)

(** [sub] occurs in [s] as a contiguous block of characters. *)
Definition substring_of (sub s : string) : Prop :=
  ∃ pre post : string, s = pre +:+ sub +:+ post.

(** [keyword] appears in [title], letter case ignored. *)
Definition appears_in (keyword title : string) : bool :=
  Py.contains (Py.lower keyword) (Py.lower title).



(** The number of positive keywords that appear in the title. *)
Definition matched_count (target : Products.CuratedProduct) (title : string) : nat :=
  length (filter (λ pos, appears_in pos title = true) (Products.positive_keywords target)).

(** A SKU or style code counts when it is present, not empty, and appears
    in the title. *)
Definition code_appears (code : option string) (title : string) : bool :=
  match code with
  | Some c => bool_decide (c ≠ "") && appears_in c title
  | None => false
  end.

(** [+0.3], capped at 1. *)
Definition boosted (hit : bool) (confidence : Q) : Q :=
  if hit then Qmin 1 (confidence + (3 # 10)) else confidence.

(** [min(1, matchedCount / max(2, 0.5 * totalPositiveKeywords))], boosted
    for the SKU and then for the style code. *)
Definition confidence (target : Products.CuratedProduct) (title : string) : Q :=
  let total := length (Products.positive_keywords target) in
  let base :=
    Qmin 1 (inject_Z (Z.of_nat (matched_count target title))
            / Qmax 2 ((1 # 2) * inject_Z (Z.of_nat total))) in
  boosted (code_appears (Products.style_code target) title)
    (boosted (code_appears (Products.sku target) title) base).

(** *** Priority tiers: [low(0) < medium(1) < high(2)] *)

Inductive Tier := low | medium | high.

Definition tier_name (t : Tier) : string :=
  match t with
  | low => "low"
  | medium => "medium"
  | high => "high"
  end.

Definition tier_rank (t : Tier) : Z :=
  match t with
  | low => 0
  | medium => 1
  | high => 2
  end.

(** *** The event log *)

(** The [n] most recent entries of a log, in arrival order. *)
Definition most_recent {A : Type} (n : nat) (log : list A) : list A :=
  drop (length log - n) log.

(** The [n] most recent entries of a log, the newest first. *)
Definition most_recent_first {A : Type} (n : nat) (log : list A) : list A :=
  reverse (most_recent n log).

(** *** The inventory-state index *)

(** Every product id of the snapshot map has an entry in the variant-set map. *)
Definition index_invariant (self : Shopify.ShopifyStoreMonitor) : Prop :=
  dom (Shopify._seen_products self) ⊆ dom (Shopify._seen_variants self).

(** The product id has been seen by the poller. *)
Definition seen (self : Shopify.ShopifyStoreMonitor) (product_id : string) : Prop :=
  is_Some (Shopify._seen_products self !! product_id).

End Spec.

(** ** Sample data: one store, one product, a few events *)

Module Samples.

Definition dtlr : Shopify.MonitoredStore :=
  {| Shopify.name := "DTLR"; Shopify.store_url := "https://www.dtlr.com";
     Shopify.enabled := true; Shopify.delay_ms := 3000; Shopify.error_count := 0;
     Shopify.success_count := 0; Shopify.products_found := 0 |}.

Definition sample_variant (id : Z) (available : bool) (size : string) : Shopify.Variant :=
  {| Shopify.v_id := id; Shopify.v_available := available;
     Shopify.v_price := Some 110%Q;
     Shopify.v_option1 := size; Shopify.v_option2 := ""; Shopify.v_option3 := "";
     Shopify.v_title := size; Shopify.v_sku := None;
     Shopify.v_inventory_quantity := 1 |}.

(** The product 77 with three variants (ids 1, 2 and 3, sizes 9, 10 and
    11), each available or not. *)
Definition dunk (first second third : bool) : Shopify.Product :=
  {| Shopify.p_id := "77"; Shopify.p_title := "Nike Off White Dunk Low";
     Shopify.p_handle := "ow-dunk";
     Shopify.p_variants := [sample_variant 1 first "9"; sample_variant 2 second "10";
                            sample_variant 3 third "11"];
     Shopify.p_images := [] |}.

(** The poller of [dtlr] after a first poll that saw the variants 1 and 2. *)
Definition seen_monitor : Shopify.ShopifyStoreMonitor :=
  (Shopify._process_products (Shopify.new_monitor dtlr []) [dunk true true false]).1.1.

Definition sample_product : Base.ProductInfo :=
  {| Base.url := "https://www.dtlr.com/products/ow-dunk";
     Base.title := "Nike Off White Dunk Low";
     Base.sku := None; Base.price := 110; Base.image_url := None;
     Base.available := true; Base.sizes_available := ["10"]; Base.variants := ∅ |}.

(** An unmatched event, told apart by its kind. *)
Definition sample_event (kind : string) : Manager.MonitorEvent :=
  {| Manager.event_type := kind; Manager.source := "shopify";
     Manager.store_name := "DTLR"; Manager.product := sample_product;
     Manager.matched_product := None; Manager.match_confidence := 0 |}.

(** An event matched to the built-in target [off_white_dunk] (tier [high]). *)
Definition matched_event (confidence : Q) : Manager.MonitorEvent :=
  {| Manager.event_type := "new_product"; Manager.source := "shopify";
     Manager.store_name := "DTLR"; Manager.product := sample_product;
     Manager.matched_product := Some Products.off_white_dunk;
     Manager.match_confidence := confidence |}.

(** A manager with the given capacity and event log. *)
Definition sample_manager (capacity : Z) (events : list Manager.MonitorEvent)
    : Manager.MonitorManager :=
  {| Manager._events := events; Manager._max_events := capacity;
     Manager._on_event := false; Manager._on_high_priority := false;
     Manager.auto_task_enabled := true; Manager.auto_task_min_confidence := 7 # 10;
     Manager.auto_task_min_priority := "medium";
     Manager.total_products_found := 0; Manager.high_priority_found := 0;
     Manager.tasks_created := 0 |}.

Definition three_events : list Manager.MonitorEvent :=
  [sample_event "first"; sample_event "second"; sample_event "third"].

End Samples.

(** * Properties

    ** Python built-ins *)

Module PyFacts.

Lemma prefix_spec (p s : string) :
  String.prefix p s = true ↔ ∃ post : string, s = p +:+ post.
Proof.
  revert s; induction p as [|a p IH]; intros s.
  - destruct s; simpl; (split; [intros _; by eexists | done]).
  - destruct s as [|b s]; simpl.
    + split; [done | intros [post H]; discriminate H].
    + destruct (Ascii.ascii_dec a b) as [->|Hne].
      * rewrite IH. split; intros [post H]; exists post.
        -- simpl. by rewrite H.
        -- simpl in H. by injection H.
      * split; [done | intros [post H]; simpl in H; injection H; congruence].
Qed.

Lemma contains_spec (sub s : string) :
  Py.contains sub s = true ↔ Spec.substring_of sub s.
Proof.
  unfold Spec.substring_of. induction s as [|a s IH].
  - change (Py.contains sub "") with (if String.prefix sub "" then true else false).
    destruct (String.prefix sub "") eqn:E.
    + apply prefix_spec in E as [post E]. split; [intros _ | done].
      exists "", post. done.
    + split; [done | intros (pre & post & H)].
      destruct pre; [|discriminate H]. simpl in H.
      assert (String.prefix sub "" = true) by (apply prefix_spec; eauto).
      congruence.
  - cbn [Py.contains]. destruct (String.prefix sub (String a s)) eqn:E.
    + apply prefix_spec in E as [post E]. split; [intros _ | done].
      exists "", post. done.
    + rewrite IH. split.
      * intros (pre & post & ->). by exists (String a pre), post.
      * intros (pre & post & H). destruct pre as [|b pre].
        -- simpl in H.
           assert (String.prefix sub (String a s) = true) by (apply prefix_spec; eauto).
           congruence.
        -- simpl in H. injection H as _ ->. eauto.
Qed.

Lemma appears_in_spec (keyword title : string) :
  Spec.appears_in keyword title = true
  ↔ Spec.substring_of (Py.lower keyword) (Py.lower title).
Proof. apply contains_spec. Qed.



End PyFacts.

(** ** Title matching *)

Module MatchingFacts.
Import Products PyFacts.





End MatchingFacts.

Module MatchingTheorems.
Import Products PyFacts MatchingFacts.





End MatchingTheorems.

(** ** Rate limiting *)

Module BackoffTheorems.
Import Shopify.

Lemma backoff_time_saturates (n : nat) : (5 <= n)%nat → backoff_time n = 300.
Proof.
  intros Hn. unfold backoff_time.
  assert (2 ^ 5 <= 2 ^ Z.of_nat n) by (apply Z.pow_le_mono_r; lia).
  change (2 ^ 5) with 32 in *. lia.
Qed.

(** C5.  Handling a rate limit with [n] consecutive errors computes the
    delay [min(300, 10 * 2^n)] seconds (10, 20, 40, 80, 160, then 300 from
    [n = 5] on), sets the end of the backoff window to [now] plus that
    delay, adds one to the consecutive-error counter and one to the error
    counter of the store, and leaves the rest of the poller as it was. *)
Theorem handle_rate_limit_spec (self : ShopifyStoreMonitor) (now : Q) :
  let n := _consecutive_errors self in
  let delay := Z.min 300 (10 * 2 ^ Z.of_nat n) in
  let self' := (_handle_rate_limit self now).1 in
  (_handle_rate_limit self now).2 = [RateLimitedBackingOff (name (store self)) delay]
  ∧ _backoff_until self' = (now + inject_Z delay)%Q
  ∧ _consecutive_errors self' = (n + 1)%nat
  ∧ error_count (store self') = (error_count (store self) + 1)%nat
  ∧ (success_count (store self'), products_found (store self'))
    = (success_count (store self), products_found (store self))
  ∧ (_seen_products self', _seen_variants self') = (_seen_products self, _seen_variants self)
  ∧ (backoff_time 0, backoff_time 1, backoff_time 2, backoff_time 3, backoff_time 4)
    = (10, 20, 40, 80, 160)
  ∧ (∀ m : nat, (5 <= m)%nat → backoff_time m = 300).
Proof.
  cbv zeta. repeat split; try reflexivity. apply backoff_time_saturates.
Qed.

End BackoffTheorems.

(** ** The auto-trigger policy *)

Module PolicyTheorems.
Import Manager.

Lemma priority_level_of_tier (t : Spec.Tier) :
  priority_levels !! Spec.tier_name t = Some (Spec.tier_rank t).
Proof. by destruct t. Qed.

Lemma confidence_test (a b : Q) : negb (Qle_bool a b) = false ↔ (a <= b)%Q.
Proof.
  rewrite <- Qle_bool_iff. destruct (Qle_bool a b); simpl; split; congruence.
Qed.

(** The policy fires exactly when the event has a matched target, its
    confidence is at least the configured minimum, and its tier is at
    least the configured minimum tier. *)
Lemma should_create_task_iff (self : MonitorManager) (event : MonitorEvent)
    (min_tier event_tier : Spec.Tier) :
  auto_task_min_priority self = Spec.tier_name min_tier →
  priority event = Spec.tier_name event_tier →
  _should_create_task self event = true
  ↔ matched_product event ≠ None
    ∧ (auto_task_min_confidence self <= match_confidence event)%Q
    ∧ Spec.tier_rank min_tier <= Spec.tier_rank event_tier.
Proof.
  intros Hmin Hev. unfold _should_create_task.
  rewrite Hmin, Hev, !priority_level_of_tier. simpl.
  destruct (matched_product event) as [p|]; [|split; [done | intros [? _]; done]].
  destruct (negb (Qle_bool _ _)) eqn:E.
  - split; [done|]. intros (_ & Hc & _). apply confidence_test in Hc. congruence.
  - apply confidence_test in E. rewrite Z.geb_le. split; [by intros|tauto].
Qed.

(** C6.  For every event and every auto-trigger configuration whose
    priorities are tiers, the policy fires if and only if the event has a
    matched target, its confidence is at least [minConfidence] and its tier
    is at least the minimum tier in the order [low(0) < medium(1) < high(2)].
    In particular: confidence 0.65 under [minConfidence = 0.7] never
    triggers; confidence 0.9 at tier [medium] under minimum tier [high]
    never triggers; confidence 0.9 at tier [high] under minimum tier
    [medium] (and a [minConfidence] of at most 0.9) always triggers. *)
Theorem auto_trigger_policy (self : MonitorManager) (event : MonitorEvent)
    (min_tier event_tier : Spec.Tier) :
  auto_task_min_priority self = Spec.tier_name min_tier →
  priority event = Spec.tier_name event_tier →
  (_should_create_task self event = true
   ↔ matched_product event ≠ None
     ∧ (auto_task_min_confidence self <= match_confidence event)%Q
     ∧ Spec.tier_rank min_tier <= Spec.tier_rank event_tier)
  ∧ ((match_confidence event == 65 # 100)%Q → (auto_task_min_confidence self == 7 # 10)%Q →
     _should_create_task self event = false)
  ∧ ((match_confidence event == 9 # 10)%Q → event_tier = Spec.medium → min_tier = Spec.high →
     _should_create_task self event = false)
  ∧ ((match_confidence event == 9 # 10)%Q → event_tier = Spec.high → min_tier = Spec.medium →
     (auto_task_min_confidence self <= 9 # 10)%Q →
     _should_create_task self event = true).
Proof.
  intros Hmin Hev.
  pose proof (should_create_task_iff self event min_tier event_tier Hmin Hev) as Hiff.
  split; [exact Hiff|]. repeat split.
  - intros Hc Hm. apply not_true_is_false. rewrite Hiff. intros (_ & H & _).
    rewrite Hc, Hm in H. by vm_compute in H.
  - intros _ -> ->. apply not_true_is_false. rewrite Hiff. intros (_ & _ & H).
    simpl in H. lia.
  - intros Hc -> -> Hm. apply Hiff. repeat split.
    + unfold priority in Hev. destruct (matched_product event); [done | discriminate Hev].
    + by rewrite Hc.
    + simpl. lia.
Qed.

Lemma auto_trigger_policy_witness :
  _should_create_task (Samples.sample_manager 1000 []) (Samples.matched_event (9 # 10)) = true.
Proof.
  refine (proj2 (proj2 (proj2
            (auto_trigger_policy (Samples.sample_manager 1000 [])
               (Samples.matched_event (9 # 10)) Spec.medium Spec.high eq_refl eq_refl)))
            _ _ _ _).
  - reflexivity.
  - reflexivity.
  - reflexivity.
  - by vm_compute.
Defined.

End PolicyTheorems.

(** ** The event log *)

Module EventLogFacts.
Import Manager.

Section slices.
Context {A : Type}.
Implicit Types (l : list A) (n : nat).

Lemma slice_from_neg (k : Z) l :
  0 < k → Py.slice_from (- k) l = Spec.most_recent (Z.to_nat k) l.
Proof.
  intros Hk. unfold Py.slice_from, Spec.most_recent.
  destruct (Z.ltb_spec (- k) 0); [|lia]. f_equal. lia.
Qed.

Lemma slice_from_zero l : Py.slice_from (- 0) l = l.
Proof. unfold Py.slice_from. simpl. by rewrite Z.min_l by lia. Qed.

Lemma most_recent_length n l :
  length (Spec.most_recent n l) = Nat.min n (length l).
Proof. unfold Spec.most_recent. rewrite length_drop. lia. Qed.

Lemma most_recent_all n l :
  (length l <= n)%nat → Spec.most_recent n l = l.
Proof.
  intros H. unfold Spec.most_recent.
  by replace (length l - n)%nat with 0%nat by lia.
Qed.

Lemma most_recent_app n l l' :
  Spec.most_recent n (Spec.most_recent n l ++ l') = Spec.most_recent n (l ++ l').
Proof.
  destruct (decide (length l <= n)%nat) as [Hle|Hgt].
  - by rewrite (most_recent_all n l).
  - unfold Spec.most_recent.
    rewrite <- (drop_app_le l l' (length l - n)) by lia.
    rewrite drop_drop. f_equal. rewrite length_drop, !length_app. lia.
Qed.

End slices.

Lemma store_event_spec (self : MonitorManager) (event : MonitorEvent) :
  0 < _max_events self →
  store_event self event
  = Spec.most_recent (Z.to_nat (_max_events self)) (_events self ++ [event]).
Proof.
  intros Hcap. unfold store_event.
  destruct (Z.gtb_spec (Z.of_nat (length (_events self ++ [event]))) (_max_events self)).
  - by apply slice_from_neg.
  - symmetry. apply most_recent_all. lia.
Qed.

Lemma process_events_log (events : list MonitorEvent) (self : MonitorManager) :
  0 < _max_events self →
  (length (_events self) <= Z.to_nat (_max_events self))%nat →
  _max_events (process_events self events) = _max_events self
  ∧ _events (process_events self events)
    = Spec.most_recent (Z.to_nat (_max_events self)) (_events self ++ events).
Proof.
  revert self; induction events as [|event events IH]; intros self Hcap Hlen.
  - simpl. split; [done|]. rewrite app_nil_r. symmetry. by apply most_recent_all.
  - cbn [process_events].
    assert (_events (_process_event self event).1
            = Spec.most_recent (Z.to_nat (_max_events self)) (_events self ++ [event]))
      as Hstep by (by apply store_event_spec).
    destruct (IH (_process_event self event).1 Hcap) as [Hmax Hlog].
    { rewrite Hstep, most_recent_length. apply Nat.le_min_l. }
    split; [exact Hmax|]. rewrite Hlog, Hstep.
    change (_max_events (_process_event self event).1) with (_max_events self).
    rewrite most_recent_app. by rewrite <- app_assoc.
Qed.

End EventLogFacts.

Module EventLogTheorems.
Import Manager EventLogFacts.

(** C4, as stated, fails: with the log [first; second; third] and limit 2
    the manager returns [second; third], the newest last, where the claim
    has [third; second]. *)
Lemma get_recent_events_not_newest_first :
  let self := Samples.sample_manager 1000 Samples.three_events in
  get_recent_events self 2 = [Samples.sample_event "second"; Samples.sample_event "third"]
  ∧ Spec.most_recent_first 2 (_events self) = [Samples.sample_event "third"; Samples.sample_event "second"]
  ∧ get_recent_events self 2 ≠ Spec.most_recent_first 2 (_events self).
Proof. cbv zeta. split; [reflexivity|]. split; [reflexivity|]. discriminate. Qed.

(** C4, amended.  For every event log and every positive limit,
    [get_recent_events] returns the most recent [min(limit, stored)]
    events in arrival order (the oldest of them first, the newest last):
    a suffix of the log. *)
Theorem get_recent_events_spec (self : MonitorManager) (limit : Z) :
  0 < limit →
  get_recent_events self limit = Spec.most_recent (Z.to_nat limit) (_events self)
  ∧ length (get_recent_events self limit)
    = Nat.min (Z.to_nat limit) (length (_events self))
  ∧ ∃ older, _events self = older ++ get_recent_events self limit.
Proof.
  intros Hlimit. unfold get_recent_events. rewrite slice_from_neg by done.
  split; [done|]. split; [apply most_recent_length|].
  exists (take (length (_events self) - Z.to_nat limit) (_events self)).
  unfold Spec.most_recent. by rewrite take_drop.
Qed.

Lemma get_recent_events_spec_witness :
  get_recent_events
    (Samples.sample_manager 1000 Samples.three_events) 2
  = Spec.most_recent 2 Samples.three_events.
Proof.
  apply (get_recent_events_spec
           (Samples.sample_manager 1000 Samples.three_events) 2).
  reflexivity.
Defined.

(** C7.  A log of positive capacity that starts empty never holds more
    than its capacity of events; after [capacity + k] events went through
    [_process_event] it holds exactly [capacity] events, the most recent
    ones in arrival order (the first [k] were evicted). *)
Theorem event_log_bounded (self : MonitorManager) (events : list MonitorEvent) (k : nat) :
  0 < _max_events self →
  _events self = [] →
  length events = (Z.to_nat (_max_events self) + k)%nat →
  _events (process_events self events) = drop k events
  ∧ length (_events (process_events self events)) = Z.to_nat (_max_events self)
  ∧ ∀ fed : list MonitorEvent,
      (length (_events (process_events self fed)) <= Z.to_nat (_max_events self))%nat.
Proof.
  intros Hcap Hempty Hlen.
  assert (Hfed : ∀ fed, _events (process_events self fed)
                        = Spec.most_recent (Z.to_nat (_max_events self)) fed).
  { intros fed. destruct (process_events_log fed self Hcap) as [_ ->].
    - rewrite Hempty. simpl. lia.
    - by rewrite Hempty. }
  split; [|split].
  - rewrite Hfed. unfold Spec.most_recent. f_equal. lia.
  - rewrite Hfed, most_recent_length. lia.
  - intros fed. rewrite Hfed, most_recent_length. lia.
Qed.

Lemma event_log_bounded_witness :
  _events (process_events (Samples.sample_manager 2 [])
             Samples.three_events)
  = [Samples.sample_event "second"; Samples.sample_event "third"].
Proof.
  apply (event_log_bounded (Samples.sample_manager 2 [])
           Samples.three_events 1);
    reflexivity.
Defined.

(** C10.  With limit 0, [get_recent_events] returns every stored event and
    [get_high_priority_events] every stored event of priority [high]; with
    a positive limit both return at most [limit] events. *)
Theorem limit_zero_returns_everything (self : MonitorManager) :
  get_recent_events self 0 = _events self
  ∧ get_high_priority_events self 0 = filter (λ e, priority e = "high") (_events self)
  ∧ ∀ limit : Z, 0 < limit →
      Z.of_nat (length (get_recent_events self limit)) <= limit
      ∧ Z.of_nat (length (get_high_priority_events self limit)) <= limit.
Proof.
  unfold get_recent_events, get_high_priority_events.
  split; [apply slice_from_zero|]. split; [apply slice_from_zero|].
  intros limit Hlimit. rewrite !slice_from_neg by done.
  rewrite !most_recent_length. lia.
Qed.

End EventLogTheorems.

(** ** Change detection of the store poller *)

Module PollerFacts.
Import Base Shopify.

Lemma process_loop_app (products_data : list Product) (self : ShopifyStoreMonitor)
    (detected : list ProductInfo) (log : list LogRecord) :
  process_loop self detected log products_data
  = let '(self', found, logged) := process_loop self [] [] products_data in
    (self', detected ++ found, log ++ logged).
Proof.
  revert self detected log.
  induction products_data as [|product rest IH]; intros self detected log; simpl.
  - by rewrite !app_nil_r.
  - destruct (process_product self product) as [[self1 found1] logged1].
    rewrite (IH self1 (detected ++ found1) (log ++ logged1)).
    rewrite (IH self1 found1 logged1).
    destruct (process_loop self1 [] [] rest) as [[self2 found2] logged2].
    simpl. by rewrite !app_assoc.
Qed.

(** A poll is the iteration of [process_product] over the feed, each
    record seeing the index as the records before it left it. *)
Lemma process_products_cons (self : ShopifyStoreMonitor) (product : Product)
    (rest : list Product) :
  _process_products self (product :: rest)
  = let '(self1, found1, logged1) := process_product self product in
    let '(self2, found2, logged2) := _process_products self1 rest in
    (self2, found1 ++ found2, logged1 ++ logged2).
Proof.
  unfold _process_products. simpl.
  destruct (process_product self product) as [[self1 found1] logged1].
  by rewrite process_loop_app.
Qed.


(** A record without target-size filter whose prices all convert gets as
    far as the check for a new product or a restock. *)
Lemma extract_sizes_total (avs : list Variant) (sizes : list string)
    (variant_map : gmap string VariantDetail) :
  Forall (λ v, is_Some (v_price v)) avs →
  is_Some (extract_sizes avs sizes variant_map).
Proof.
  intros Hall. revert sizes variant_map.
  induction Hall as [|v avs [price Hprice] _ IH]; intros sizes variant_map; simpl.
  - done.
  - rewrite Hprice. destruct (_extract_size v) as [size|]; [|apply IH].
    destruct (String.eqb size ""); apply IH.
Qed.

Lemma build_info_unfiltered (self : ShopifyStoreMonitor) (product : Product) :
  target_sizes self = [] →
  available_variants product ≠ [] →
  Forall (λ v, is_Some (v_price v)) (available_variants product) →
  ∃ product_info, build_info self product = Snapshot product_info.
Proof.
  intros Hts Hne Hall. unfold build_info.
  destruct (extract_sizes_total _ [] ∅ Hall) as [[sizes variant_map] ->].
  rewrite Hts. destruct (available_variants product) as [|first avs]; [done|].
  apply Forall_cons in Hall as [[price ->] _]. eauto.
Qed.

End PollerFacts.

Module PollerTheorems.
Import Base Shopify Samples PollerFacts.

(** C1, as stated, fails: a product that was never seen and has no
    available variant is not reported, and neither index map changes. *)
Lemma unseen_sold_out_product_not_reported :
  let self := new_monitor dtlr [] in
  ¬ Spec.seen self "77"
  ∧ _process_products self [dunk false false false] = (self, [], []).
Proof.
  cbv zeta. split; [|reflexivity].
  intros [snapshot H]. discriminate H.
Qed.

(** C1, amended.  For every record of a poll: a record with no available
    variant is never reported, and its variant-set entry is replaced by the
    empty set when the product was seen before (nothing changes when it was
    not).  For a record that has an available variant and gets as far as
    the classification (no conversion raised, the target-size filter kept
    it): a product id that is not in the seen-products map is reported as
    a new product and both index maps are updated; a seen product is
    reported, as a restock, exactly when the current variant ids minus the
    recorded ones are not empty, and both index maps are then updated to
    the current observation; a seen product whose current variant set
    equals the recorded one is not reported. *)
Theorem classification_spec (self : ShopifyStoreMonitor) (product : Product) :
  let product_id := p_id product in
  let self' := (process_product self product).1.1 in
  let detected := (process_product self product).1.2 in
  let log := (process_product self product).2 in
  let current := current_variant_ids product in
  let recorded := recorded_variants self product_id in
  (available_variants product = [] →
     detected = [] ∧ log = []
     ∧ _seen_products self' = _seen_products self
     ∧ (Spec.seen self product_id →
          _seen_variants self' = <[product_id := ∅]> (_seen_variants self))
     ∧ (¬ Spec.seen self product_id → _seen_variants self' = _seen_variants self))
  ∧ (∀ product_info,
       available_variants product ≠ [] →
       build_info self product = Snapshot product_info →
       (¬ Spec.seen self product_id →
          detected = [product_info]
          ∧ log = [NewProductDetected (name (store self))
                     (String.substring 0 50 (title product_info))
                     (take 5 (sizes_available product_info))]
          ∧ _seen_products self' = <[product_id := product_info]> (_seen_products self)
          ∧ _seen_variants self' = <[product_id := current]> (_seen_variants self))
       ∧ (Spec.seen self product_id → current ∖ recorded ≠ ∅ →
          detected = [product_info]
          ∧ log = [RestockDetected (name (store self))
                     (String.substring 0 50 (title product_info))
                     (size (current ∖ recorded))]
          ∧ _seen_products self' = <[product_id := product_info]> (_seen_products self)
          ∧ _seen_variants self' = <[product_id := current]> (_seen_variants self))
       ∧ (Spec.seen self product_id → current ∖ recorded = ∅ →
          detected = [] ∧ log = [] ∧ self' = self)
       ∧ (Spec.seen self product_id → current = recorded → detected = [])).
Proof.
  cbv zeta. unfold process_product, Spec.seen. split.
  - intros ->. destruct (_seen_products self !! p_id product) as [snapshot|] eqn:E; simpl.
    + repeat split; try done. intros H. contradict H. eauto.
    + repeat split; try done.
  - intros product_info Hne ->.
    destruct (available_variants product) as [|v avs] eqn:Eav; [done|].
    destruct (_seen_products self !! p_id product) as [snapshot|] eqn:E.
    + split; [intros H; contradict H; eauto|].
      destruct (decide (current_variant_ids product
                        ∖ recorded_variants self (p_id product) = ∅)) as [Hd|Hd]; simpl.
      * split; [done|]. split; [done|]. intros _ Heq. done.
      * split; [done|]. split; [done|]. intros _ Heq. contradict Hd. rewrite Heq. apply difference_diag_L.
    + simpl. split; [done|]. 
      split; [|split]; intros [? ?]; done.
Qed.

(** *** The index invariant *)

Lemma process_product_invariant (self : ShopifyStoreMonitor) (product : Product) :
  Spec.index_invariant self →
  Spec.index_invariant (process_product self product).1.1.
Proof.
  unfold Spec.index_invariant, process_product. intros Hinv.
  destruct (available_variants product) as [|v avs].
  - destruct (_seen_products self !! p_id product); simpl; [|done].
    rewrite dom_insert_L. by apply union_subseteq_r'.
  - destruct (build_info self product) as [| |product_info]; [done|done|].
    destruct (_seen_products self !! p_id product).
    + destruct (decide _); simpl; [done|]. rewrite !dom_insert_L. by apply union_mono_l.
    + simpl. rewrite !dom_insert_L. by apply union_mono_l.
Qed.

Lemma process_loop_invariant (products_data : list Product) (self : ShopifyStoreMonitor)
    (detected : list ProductInfo) (log : list LogRecord) :
  Spec.index_invariant self →
  Spec.index_invariant (process_loop self detected log products_data).1.1.
Proof.
  revert self detected log.
  induction products_data as [|product rest IH]; intros self detected log Hinv; simpl.
  - done.
  - pose proof (process_product_invariant self product Hinv) as Hstep.
    destruct (process_product self product) as [[self1 found1] logged1].
    by apply IH.
Qed.

Lemma new_monitor_invariant (store : MonitoredStore) (target_sizes : list string) :
  Spec.index_invariant (new_monitor store target_sizes).
Proof. unfold Spec.index_invariant. simpl. done. Qed.

(** C8.  Every poll preserves the invariant of the inventory-state index:
    if every product id of the snapshot map has an entry in the
    variant-set map before [_process_products], so it has afterwards,
    whatever the feed (new products, restocks, losses of availability). *)
Theorem index_invariant_preserved (self : ShopifyStoreMonitor)
    (products_data : list Product) :
  Spec.index_invariant self →
  Spec.index_invariant (_process_products self products_data).1.1.
Proof. apply process_loop_invariant. Qed.

Lemma index_invariant_preserved_witness :
  Spec.index_invariant
    (_process_products (new_monitor dtlr [])
       [dunk true true false; dunk false false false; dunk true true true]).1.1.
Proof.
  apply (index_invariant_preserved (new_monitor dtlr [])
           [dunk true true false; dunk false false false; dunk true true true]).
  apply new_monitor_invariant.
Defined.

(** *** Partial loss of availability *)


End PollerTheorems.

Module PollerExamples.
Import Base Shopify Samples PollerFacts PollerTheorems.

(** Closed side conditions on the sample data, settled by evaluation. *)
Ltac seen_by_evaluation := vm_compute; eexists; reflexivity.
Ltac decided_by_evaluation := apply (bool_decide_unpack _); vm_compute; exact I.

Lemma classification_spec_witness :
  ∃ product_info,
    (process_product seen_monitor (dunk true true true)).1.2 = [product_info]
    ∧ _seen_variants (process_product seen_monitor (dunk true true true)).1.1
      = <["77" := current_variant_ids (dunk true true true)]> (_seen_variants seen_monitor).
Proof.
  destruct (build_info_unfiltered seen_monitor (dunk true true true))
    as [product_info Hbuilt]; [reflexivity | discriminate | |].
  { repeat constructor; by eexists. }
  exists product_info.
  destruct (proj2 (classification_spec seen_monitor (dunk true true true))
              product_info) as (_ & Hrestock & _); [discriminate | exact Hbuilt |].
  destruct Hrestock as (Hdetected & _ & _ & Hvariants).
  - seen_by_evaluation.
  - decided_by_evaluation.
  - split; [exact Hdetected | exact Hvariants].
Defined.


(** The scenario of the specification: with the variants 1 and 2 recorded,
    a poll that returns 1, 2 and 3 is a restock by one variant and records
    all three; a poll that returns 1 and 2 again reports nothing; a poll
    that returns no available variant empties the entry and reports
    nothing. *)
Example restock_scenario :
  recorded_variants seen_monitor "77" = {[1; 2]}
  ∧ (_process_products seen_monitor [dunk true true true]).2
    = [RestockDetected "DTLR" "Nike Off White Dunk Low" 1]
  ∧ sizes_available <$> (_process_products seen_monitor [dunk true true true]).1.2
    = [["9"; "10"; "11"]]
  ∧ recorded_variants (_process_products seen_monitor [dunk true true true]).1.1 "77"
    = {[1; 2; 3]}
  ∧ _process_products seen_monitor [dunk true true false] = (seen_monitor, [], [])
  ∧ (_process_products seen_monitor [dunk false false false]).1.2 = []
  ∧ _seen_variants (_process_products seen_monitor [dunk false false false]).1.1 !! "77"
    = Some ∅.
Proof.
  repeat split; reflexivity.
Qed.

End PollerExamples.

(** ** From the poller to the event log *)

Module PipelineTheorems.
Import Base Shopify Samples.

(** C3.  The event built for a detection of the store poller has the kind
    [new_product] whatever the poller found: [_handle_product] leaves
    [is_restock] at its default.  For the poller that recorded the
    variants 1 and 2 of product 77, a poll that returns the variants 1, 2
    and 3 is logged as a restock by the poller, and the manager's event
    for it has the kind [new_product], not [restock]. *)
Theorem restock_event_has_kind_new_product :
  (∀ (product_db : Products.ProductDatabase) (store : MonitoredStore)
     (product : ProductInfo),
     Manager.event_type
       (Manager.shopify_event (_handle_product product_db store product).1)
     = "new_product")
  ∧ Spec.seen seen_monitor "77"
  ∧ (Pipeline.poll_events [Products.off_white_dunk; Products.fragment_jordan]
       seen_monitor [dunk true true true]).2
    = [RestockDetected "DTLR" "Nike Off White Dunk Low" 1]
  ∧ Manager.event_type
      <$> (Pipeline.poll_events [Products.off_white_dunk; Products.fragment_jordan]
             seen_monitor [dunk true true true]).1.2
    = ["new_product"].
Proof.
  split; [|split; [|split]].
  - intros product_db store product. unfold _handle_product.
    by destruct (Products.match_product_title _ _) as [|[matched confidence] rest].
  - vm_compute. eexists. reflexivity.
  - reflexivity.
  - reflexivity.
Qed.

End PipelineTheorems.
